(** * ASRS climate scenario tool: a shallow embedding of [streamlit_app.py]

    The script is a single top-to-bottom pass that Streamlit re-runs on every
    interaction.  Its inputs are the widget values (industry, multiselect
    selection, uploaded file, export button); its outputs are what it hands to
    the renderers (markdown lines, radar rings, the bar chart series and the
    lines written into the PDF).

    Conventions of the model
    - Python dictionaries whose key order is observed ([list(d.keys())]) are
      association lists in insertion order.
    - Python numbers are rationals ([Q]): integers are injected, [/] is true
      division.  Binary floating point rounding is not modelled; numeric
      equalities that hold only up to re-association are stated with [==].
      The 64-bit integer arithmetic in which pandas totals a column of whole
      numbers is modelled apart, with its wrap-around ([int64_sum]).
    - A raised exception aborts the run: fallible steps live in the [result]
      monad below.
    - Text written with an f-string template is kept structured: one
      constructor per template, carrying the interpolated values. *)

From Stdlib Require Import List String ZArith QArith Bool Lia.
From Stdlib Require Import Permutation Ascii.
Import ListNotations.
Open Scope string_scope.
Open Scope list_scope.

(** ** Exceptions and the error monad *)

Inductive error : Type :=
| KeyError (key : string)         (* d[k] on a dict, frame or row without k *)
| IndexError                      (* l[0] on an empty list *)
| ValueError                      (* matplotlib: x and y of different length *)
| StreamlitAPIException           (* multiselect default not among the options *)
| UnicodeEncodeError.             (* pdf.output: a character latin-1 lacks *)

Inductive result (A : Type) : Type :=
| Ok (a : A)
| Err (e : error).
Arguments Ok {A} a.
Arguments Err {A} e.

Definition bind {A B} (r : result A) (k : A -> result B) : result B :=
  match r with
  | Ok a => k a
  | Err e => Err e
  end.

Notation "x <- r ;; k" := (bind r (fun x => k))
  (at level 61, r at next level, right associativity).
Notation "' pat <- r ;; k" := (bind r (fun x => match x with pat => k end))
  (at level 61, pat pattern, r at next level, right associativity).

(** ** Dictionaries in insertion order *)

Definition dict (V : Type) : Type := list (string * V).

Fixpoint dict_find {V} (d : dict V) (k : string) : option V :=
  match d with
  | [] => None
  | (k', v) :: d' => if String.eqb k k' then Some v else dict_find d' k
  end.

(** [list(d.keys())] *)
Definition keys {V} (d : dict V) : list string := map fst d.

(** [d[k]] *)
Definition getitem {V} (d : dict V) (k : string) : result V :=
  match dict_find d k with
  | Some v => Ok v
  | None => Err (KeyError k)
  end.

(** [d.get(k, default)] *)
Definition get {V} (d : dict V) (k : string) (default : V) : V :=
  match dict_find d k with
  | Some v => v
  | None => default
  end.

(** [l[0]] *)
Definition item0 {A} (l : list A) : result A :=
  match l with
  | x :: _ => Ok x
  | [] => Err IndexError
  end.

(** ** The scenario catalog (lines 14-29) *)

Definition scenario_definitions : dict string :=
  [ ("Net Zero 2050",
     "Immediate and ambitious mitigation aligned with 1.5°C. (ASRS Ref: Strategy S2-6, Metrics M2-1)");
    ("Delayed Transition",
     "Postponed mitigation leading to a sharper adjustment later. (ASRS Ref: Strategy S2-6, Risk R2-2)");
    ("Hot House World",
     "No meaningful transition, resulting in >3°C warming. (ASRS Ref: Risk R2-1, Metrics M2-2)");
    ("Immediate Disorderly Transition (2025 release)",
     "Aggressive action taken suddenly, creating short-term volatility. (ASRS Ref: Strategy S2-6, Governance G2-3)");
    ("Current Policies Extension (2025 release)",
     "Continuation of current insufficient policies, high physical risks. (ASRS Ref: Risk R2-1, Strategy S2-6)") ].

(** One value of [scenario_data]: a dict with four fixed keys. *)
Record ScenarioData : Type := mkScenario {
  carbon_price : Z;
  temperature_pathway : string;
  risk_profile : list Z;
  physical_risk : Q
}.

Definition scenario_data : dict ScenarioData :=
  [ ("Net Zero 2050",
     mkScenario 130 "1.5°C" [8; 3; 9; 7; 6]%Z (2 # 10));
    ("Delayed Transition",
     mkScenario 180 "2.4°C" [7; 5; 8; 6; 4]%Z (4 # 10));
    ("Hot House World",
     mkScenario 0 ">3°C" [4; 9; 2; 5; 3]%Z (7 # 10));
    ("Immediate Disorderly Transition (2025 release)",
     mkScenario 160 "<2°C" [9; 6; 8; 8; 5]%Z (3 # 10));
    ("Current Policies Extension (2025 release)",
     mkScenario 20 ">3.5°C" [3; 10; 1; 4; 2]%Z (8 # 10)) ].

(** ** Step 1: industry and scenario selection (lines 33-52) *)

Definition industry_defaults : dict (list string) :=
  [ ("Financial Services", ["Net Zero 2050"; "Delayed Transition"]);
    ("Real Estate", ["Net Zero 2050"; "Hot House World"]);
    ("Agriculture", ["Delayed Transition"; "Hot House World"]);
    ("Energy", ["Immediate Disorderly Transition (2025 release)"; "Net Zero 2050"]);
    ("Manufacturing", ["Current Policies Extension (2025 release)"; "Delayed Transition"]) ].

(** Line 43. *)
Definition default_scenarios (industry : string) : list string :=
  get industry_defaults industry ["Net Zero 2050"].

(** Line 46, the [options] argument. *)
Definition options : list string := keys scenario_data.

Definition mem (s : string) (l : list string) : bool :=
  existsb (String.eqb s) l.

Fixpoint distinct (l : list string) : bool :=
  match l with
  | [] => true
  | x :: l' => negb (mem x l') && distinct l'
  end.

(** What the multiselect widget can hand back: a duplicate-free list of
    options, in the order the user picked them.  The call on lines 44-49 passes
    no [max_selections], so the widget itself puts no bound on the length. *)
Definition widget_value (opts picked : list string) : bool :=
  distinct picked && forallb (fun s => mem s opts) picked.

(** [st.multiselect(label, options=opts, default=dflt)]: Streamlit rejects a
    default that is not among the options; otherwise the value is the default
    until the user changes the selection ([picked = None]), and the user's
    selection afterwards.  Only options ever come back: a picked name that is
    not among them is dropped. *)
Definition multiselect (opts dflt : list string) (picked : option (list string))
  : result (list string) :=
  if forallb (fun s => mem s opts) dflt then
    Ok (match picked with
        | None => dflt
        | Some sel => filter (fun s => mem s opts) sel
        end)
  else Err StreamlitAPIException.

(** Lines 43-49. *)
Definition selected_scenarios (industry : string) (picked : option (list string))
  : result (list string) :=
  multiselect options (default_scenarios industry) picked.

(** Lines 51-52: one markdown line per selected scenario. *)
Fixpoint definition_lines (selected : list string) : result (list (string * string)) :=
  match selected with
  | [] => Ok []
  | s :: rest =>
      d <- getitem scenario_definitions s ;;
      ls <- definition_lines rest ;;
      Ok ((s, d) :: ls)
  end.

(** ** Step 2: the uploaded exposure table (lines 56-63) *)

(** The frame [pd.read_csv] returns, projected on the two labels the script
    ever reads.  The shape records which of the two columns the header has;
    the exposure column is numeric (pandas dtype int64 or float64 without
    missing cells), the sector column is text. *)
Inductive DataFrame : Type :=
| BothColumns (rows : list (string * Q))   (* "Sector" and "Exposure_M AUD" *)
| ExposureOnly (values : list Q)           (* no "Sector" column *)
| SectorOnly (sectors : list string)       (* no "Exposure_M AUD" column *)
| NeitherColumn (n_rows : nat).

(** [df['Exposure_M AUD']] *)
Definition exposure_column (df : DataFrame) : result (list Q) :=
  match df with
  | BothColumns rows => Ok (map snd rows)
  | ExposureOnly values => Ok values
  | SectorOnly _ | NeitherColumn _ => Err (KeyError "Exposure_M AUD")
  end.

(** [Series.sum()] in the rational model: the values added up from zero.
    It is the total pandas computes as long as its additions are exact: for
    a column of whole numbers, while the sum fits in 64 bits (see
    [int64_sum] for the arithmetic pandas really uses there). *)
Definition series_sum (values : list Q) : Q :=
  fold_left Qplus values 0.

(** The state the upload block leaves behind: [exposure_df] and
    [total_exposure] are bound together, and only when a file was given. *)
Definition Upload : Type := option (DataFrame * Q).

(** Lines 57-63.  [exposure_file] is [None] when nothing was uploaded, and
    otherwise the frame [pd.read_csv] returned: a file that call itself
    refuses (an empty one, say) never gets this far. *)
Definition load_exposure (exposure_file : option DataFrame) : result Upload :=
  match exposure_file with
  | None => Ok None
  | Some exposure_df =>
      column <- exposure_column exposure_df ;;
      let total_exposure := series_sum column in
      Ok (Some (exposure_df, total_exposure))
  end.

Definition total_of (u : Upload) : option Q :=
  match u with
  | Some (_, total_exposure) => Some total_exposure
  | None => None
  end.

(** ** Step 3: radar chart (lines 67-84) *)

Definition labels : list string :=
  ["Transition Risk"; "Physical Risk"; "Carbon Exposure"; "Scenario Coverage";
   "Mitigation Maturity"].

(** Lines 68-69: one angle per label, then [angles += angles[:1]].  Only the
    number of angles matters to the script. *)
Definition n_angles : nat := List.length labels + List.length (firstn 1 labels).

(** [ax.plot(x, y)] raises when [x] and [y] differ in length. *)
Definition plot {A} (n_x : nat) (y : list A) : result unit :=
  if Nat.eqb n_x (List.length y) then Ok tt else Err ValueError.

(** Lines 73-77, with the list of rings drawn so far passed along. *)
Fixpoint radar_loop (selected : list string) (rings : list (string * list Z))
  : result (list (string * list Z)) :=
  match selected with
  | [] => Ok rings
  | scenario :: rest =>
      data <- getitem scenario_data scenario ;;
      first <- item0 (risk_profile data) ;;
      let scores := risk_profile data ++ [first] in
      _ <- plot n_angles scores ;;
      radar_loop rest (rings ++ [(scenario, scores)])
  end.

Definition radar_chart (selected : list string) : result (list (string * list Z)) :=
  radar_loop selected [].

(** ** Step 3b: bar chart (lines 87-111) *)

Record BarChart : Type := mkBarChart {
  xticklabels : list string;
  transition_vars : list Q;
  physical_losses : list Q
}.

(** Lines 92-94 for one scenario's parameters. *)
Definition bar_metrics (total_exposure : Q) (data : ScenarioData) : result (Q * Q) :=
  r0 <- item0 (risk_profile data) ;;
  let var := total_exposure * (inject_Z r0 / 10) in
  let loss := total_exposure * physical_risk data in
  Ok (var, loss).

(** Lines 91-96, with the two lists being appended to passed along. *)
Fixpoint bar_loop (total_exposure : Q) (selected : list string)
    (tvars plosses : list Q) : result (list Q * list Q) :=
  match selected with
  | [] => Ok (tvars, plosses)
  | scenario :: rest =>
      data <- getitem scenario_data scenario ;;
      '(var, loss) <- bar_metrics total_exposure data ;;
      bar_loop total_exposure rest (tvars ++ [var]) (plosses ++ [loss])
  end.

(** Lines 87-111: no chart at all without an upload. *)
Definition bar_chart (upload : Upload) (selected : list string)
  : result (option BarChart) :=
  match upload with
  | None => Ok None
  | Some (_, total_exposure) =>
      '(tvars, plosses) <- bar_loop total_exposure selected [] [] ;;
      Ok (Some (mkBarChart selected tvars plosses))
  end.

(** ** Step 4: PDF export (lines 115-137) *)

(** One constructor per [multi_cell] template. *)
Inductive pdf_line : Type :=
| LScenario (name : string)                   (* "Scenario: {scenario}" *)
| LDescription (text : string)                (* "  Description: {...}" *)
| LTemperature (pathway : string)             (* "  Temperature Pathway: {...}" *)
| LCarbonPrice (price : Z)                    (* "  Carbon Price (2030): AUD ${...} per tCO2e" *)
| LTransitionVaR (amount : Q)                 (* "  Estimated Transition VaR: AUD ${...:.2f}M" *)
| LPhysicalLoss (amount : Q)                  (* "  Estimated Physical Risk Loss: AUD ${...:.2f}M" *)
| LBlank                                      (* "" *)
| LExposureHeader                             (* "Uploaded Exposure Data:" *)
| LExposureRow (sector : string) (amount : Q). (* "{Sector}: AUD ${Exposure_M AUD}M" *)

(** Lines 122-124 for one scenario's parameters: the values bound to
    [estimated_var] and [estimated_physical_loss]. *)
Definition pdf_metrics (total_exposure : option Q) (data : ScenarioData)
  : result (Q * Q) :=
  r0 <- item0 (risk_profile data) ;;
  let var_multiplier := inject_Z r0 / 10 in
  let estimated_var :=
    match total_exposure with
    | Some t => t * var_multiplier
    | None => 0
    end in
  let estimated_physical_loss :=
    match total_exposure with
    | Some t => t * physical_risk data
    | None => 0
    end in
  Ok (estimated_var, estimated_physical_loss).

(** Lines 121-132: the lines one scenario adds to the document. *)
Definition pdf_section (upload : Upload) (scenario : string) : result (list pdf_line) :=
  data <- getitem scenario_data scenario ;;
  '(estimated_var, estimated_physical_loss) <- pdf_metrics (total_of upload) data ;;
  description <- getitem scenario_definitions scenario ;;
  Ok ([ LScenario scenario;
        LDescription description;
        LTemperature (temperature_pathway data);
        LCarbonPrice (carbon_price data) ]
      ++ match upload with
         | Some _ => [ LTransitionVaR estimated_var;
                       LPhysicalLoss estimated_physical_loss ]
         | None => []
         end
      ++ [ LBlank ]).

(** Lines 120-132, with the document written so far passed along. *)
Fixpoint pdf_scenarios (upload : Upload) (selected : list string)
    (pdf : list pdf_line) : result (list pdf_line) :=
  match selected with
  | [] => Ok pdf
  | scenario :: rest =>
      section <- pdf_section upload scenario ;;
      pdf_scenarios upload rest (pdf ++ section)
  end.

(** Lines 136-137: [iterrows] and the two row lookups [row['Sector']] and
    [row['Exposure_M AUD']], in that order; a missing label raises on the
    first row, so a frame without rows raises nothing. *)
Definition exposure_rows (exposure_df : DataFrame) : result (list pdf_line) :=
  match exposure_df with
  | BothColumns rows => Ok (map (fun r => LExposureRow (fst r) (snd r)) rows)
  | ExposureOnly [] => Ok []
  | ExposureOnly (_ :: _) => Err (KeyError "Sector")
  | SectorOnly [] => Ok []
  | SectorOnly (_ :: _) => Err (KeyError "Exposure_M AUD")
  | NeitherColumn O => Ok []
  | NeitherColumn (S _) => Err (KeyError "Sector")
  end.

(** Lines 134-137. *)
Definition pdf_exposure (upload : Upload) (pdf : list pdf_line)
  : result (list pdf_line) :=
  match upload with
  | None => Ok pdf
  | Some (exposure_df, _) =>
      rows <- exposure_rows exposure_df ;;
      Ok (pdf ++ [LExposureHeader] ++ rows)
  end.

(** Lines 116-137: the document handed to [pdf.output]. *)
Definition pdf_report (upload : Upload) (selected : list string)
  : result (list pdf_line) :=
  pdf <- pdf_scenarios upload selected [] ;;
  pdf_exposure upload pdf.

(** ** One run of the script *)

Record Inputs : Type := mkInputs {
  industry : string;                       (* st.selectbox *)
  picked : option (list string);           (* st.multiselect, None until touched *)
  exposure_file : option DataFrame;        (* st.file_uploader *)
  generate_pdf : bool                      (* st.button *)
}.

Record Page : Type := mkPage {
  page_selected : list string;
  page_definitions : list (string * string);
  page_total : option Q;
  page_radar : list (string * list Z);
  page_bar : option BarChart;
  page_pdf : option (list pdf_line)
}.

Definition run (i : Inputs) : result Page :=
  selected <- selected_scenarios (industry i) (picked i) ;;
  definitions <- definition_lines selected ;;
  upload <- load_exposure (exposure_file i) ;;
  radar <- radar_chart selected ;;
  bar <- bar_chart upload selected ;;
  pdf <- (if generate_pdf i
          then (doc <- pdf_report upload selected ;; Ok (Some doc))
          else Ok None) ;;
  Ok (mkPage selected definitions (total_of upload) radar bar pdf).

(** ** Reading the outputs *)

(** A well-formed exposure table: rows of (sector, exposure in millions).
    Uploading one yields a frame with both columns. *)
Definition ExposureDataset : Type := list (string * Q).

Definition uploaded (D : option ExposureDataset) : option DataFrame :=
  option_map BothColumns D.


Definition in_catalog (selected : list string) : bool :=
  forallb (fun s => mem s options) selected.

Definition has_exposure_column (df : DataFrame) : bool :=
  match df with
  | BothColumns _ | ExposureOnly _ => true
  | SectorOnly _ | NeitherColumn _ => false
  end.

Definition has_sector_column (df : DataFrame) : bool :=
  match df with
  | BothColumns _ | SectorOnly _ => true
  | ExposureOnly _ | NeitherColumn _ => false
  end.

(** The scenario names heading the sections of a document, in page order. *)
Fixpoint section_names (pdf : list pdf_line) : list string :=
  match pdf with
  | [] => []
  | LScenario name :: rest => name :: section_names rest
  | _ :: rest => section_names rest
  end.

(** The amounts printed on the two kinds of monetary lines, in page order. *)
Fixpoint var_lines (pdf : list pdf_line) : list Q :=
  match pdf with
  | [] => []
  | LTransitionVaR v :: rest => v :: var_lines rest
  | _ :: rest => var_lines rest
  end.

Fixpoint loss_lines (pdf : list pdf_line) : list Q :=
  match pdf with
  | [] => []
  | LPhysicalLoss v :: rest => v :: loss_lines rest
  | _ :: rest => loss_lines rest
  end.

Definition is_money_line (l : pdf_line) : bool :=
  match l with
  | LTransitionVaR _ | LPhysicalLoss _ => true
  | _ => false
  end.

Definition is_exposure_header (l : pdf_line) : bool :=
  match l with
  | LExposureHeader => true
  | _ => false
  end.

Definition is_exposure_line (l : pdf_line) : bool :=
  match l with
  | LExposureHeader | LExposureRow _ _ => true
  | _ => false
  end.

(** The exposure listing of a dataset: the header line, then one line per row. *)
Definition listing (D : ExposureDataset) : list pdf_line :=
  LExposureHeader :: map (fun r => LExposureRow (fst r) (snd r)) D.

(** Closed forms of what the loops produce for catalog names. *)
Definition params_of (scenario : string) : ScenarioData :=
  get scenario_data scenario (mkScenario 0 "" [] 0).

Definition description_of (scenario : string) : string :=
  get scenario_definitions scenario "".

Definition score0 (data : ScenarioData) : Z := hd 0%Z (risk_profile data).

Definition ring_of (scenario : string) : string * list Z :=
  (scenario, risk_profile (params_of scenario) ++ [score0 (params_of scenario)]).

Definition var_of (total : Q) (scenario : string) : Q :=
  total * (inject_Z (score0 (params_of scenario)) / 10).

Definition loss_of (total : Q) (scenario : string) : Q :=
  total * physical_risk (params_of scenario).

Definition section_of (upload : Upload) (scenario : string) : list pdf_line :=
  [ LScenario scenario;
    LDescription (description_of scenario);
    LTemperature (temperature_pathway (params_of scenario));
    LCarbonPrice (carbon_price (params_of scenario)) ]
  ++ match upload with
     | Some (_, total) => [ LTransitionVaR (var_of total scenario);
                            LPhysicalLoss (loss_of total scenario) ]
     | None => []
     end
  ++ [ LBlank ].

(** The state the upload block reaches on a well-formed dataset. *)
Definition upload_of (D : option ExposureDataset) : Upload :=
  match D with
  | Some rows => Some (BothColumns rows, series_sum (map snd rows))
  | None => None
  end.

Definition chart_of (upload : Upload) (selected : list string) : option BarChart :=
  match upload with
  | Some (_, total) =>
      Some (mkBarChart selected (map (var_of total) selected)
                       (map (loss_of total) selected))
  | None => None
  end.

Definition document_of (D : option ExposureDataset) (selected : list string)
  : list pdf_line :=
  flat_map (section_of (upload_of D)) selected
  ++ match D with
     | Some rows => listing rows
     | None => []
     end.

(** Sample inputs: the upload of the specification's worked example, and a
    selection of four catalog scenarios. *)
Definition example_rows : ExposureDataset :=
  [ ("Financials", 100); ("Real Estate", 50) ].

Definition four_scenarios : list string :=
  [ "Net Zero 2050"; "Delayed Transition"; "Hot House World";
    "Immediate Disorderly Transition (2025 release)" ].

(** ** Further parts of the script *)

(** [np.linspace(0, stop, n, endpoint=False)]: the [n] points [k * (stop / n)]. *)
Definition linspace_open (stop : Q) (n : nat) : list Q :=
  map (fun k => inject_Z (Z.of_nat k) * (stop / inject_Z (Z.of_nat n))) (seq 0 n).

(** Lines 68-69, with angles measured in turns, so that the script's stop
    value, a full circle, is [1]. *)
Definition angles : list Q :=
  let a := linspace_open 1 (List.length labels) in
  a ++ firstn 1 a.

(** Lines 75-76 for one scenario's parameters: the closed polygon handed to
    [ax.plot]. *)
Definition radar_scores (data : ScenarioData) : result (list Z) :=
  first <- item0 (risk_profile data) ;;
  let scores := risk_profile data ++ [first] in
  _ <- plot n_angles scores ;;
  Ok scores.

(** Lines 139-140: [pdf.output] encodes every page as latin-1 and raises on a
    character that encoding lacks.  Texts are held here as UTF-8 bytes, in
    which a latin-1 character is an ASCII byte or a two-byte sequence led by
    0xC2 or 0xC3. *)
Fixpoint latin1 (s : string) : bool :=
  match s with
  | EmptyString => true
  | String c rest =>
      let n := nat_of_ascii c in
      if (n <? 128)%nat then latin1 rest
      else if ((n =? 194) || (n =? 195))%nat then
        match rest with
        | String c' rest' =>
            (128 <=? nat_of_ascii c')%nat && (nat_of_ascii c' <? 192)%nat
            && latin1 rest'
        | EmptyString => false
        end
      else false
  end.

(** Whether the text interpolated into a line can be encoded; the templates
    themselves and the printed numbers are ASCII. *)
Definition encodable (l : pdf_line) : bool :=
  match l with
  | LScenario name => latin1 name
  | LDescription text => latin1 text
  | LTemperature pathway => latin1 pathway
  | LExposureRow sector _ => latin1 sector
  | LCarbonPrice _ | LTransitionVaR _ | LPhysicalLoss _ | LBlank
  | LExposureHeader => true
  end.

Definition pdf_output (pdf : list pdf_line) : result unit :=
  if forallb encodable pdf then Ok tt else Err UnicodeEncodeError.

(** The whole script, lines 33-146: the run above, then, when the button was
    pressed, the document is put out for download. *)
Definition run_with_export (i : Inputs) : result Page :=
  page <- run i ;;
  match page_pdf page with
  | Some doc => _ <- pdf_output doc ;; Ok page
  | None => Ok page
  end.

Definition sectors_encodable (D : option ExposureDataset) : bool :=
  match D with
  | Some rows => forallb (fun r => latin1 (fst r)) rows
  | None => true
  end.

(** ** Totals of whole-number columns (line 62)

    A column of whole numbers is read with dtype int64, and [Series.sum()]
    then adds in 64-bit two's complement: a sum outside the range wraps
    around silently. *)








(** Whether a ring is a closed polygon over the radar's angles. *)
Definition closed_ring (ring : string * list Z) : Prop :=
  List.length (snd ring) = List.length angles /\
  hd_error (snd ring) = Some (last (snd ring) 0%Z).

(** Sample inputs. *)
Definition two_scenarios : list string :=
  [ "Hot House World"; "Net Zero 2050" ].

Definition euro_rows : ExposureDataset :=
  [ ("Energy €", 100) ].

(** * Properties *)

(** ** Membership and the catalog *)

Lemma mem_true_iff (s : string) (l : list string) : mem s l = true <-> In s l.
Proof.
  unfold mem. rewrite existsb_exists. split.
  - intros (x & Hin & Heq). apply String.eqb_eq in Heq. now subst.
  - intros Hin. exists s. split; [assumption | apply String.eqb_refl].
Qed.

Lemma dict_find_none_iff {V} (d : dict V) (k : string) :
  dict_find d k = None <-> ~ In k (keys d).
Proof.
  induction d as [| [k' v] d IH]; simpl.
  - tauto.
  - destruct (String.eqb_spec k k') as [-> | Hne].
    + split; [discriminate | intros H; exfalso; apply H; now left].
    + rewrite IH. split.
      * intros H [Heq | Hin]; [now apply Hne | now apply H].
      * intros H Hin. apply H. now right.
Qed.

Lemma options_cases (s : string) :
  mem s options = true ->
  s = "Net Zero 2050" \/ s = "Delayed Transition" \/ s = "Hot House World" \/
  s = "Immediate Disorderly Transition (2025 release)" \/
  s = "Current Policies Extension (2025 release)".
Proof.
  intros H. apply mem_true_iff in H. simpl in H.
  intuition.
Qed.

Ltac catalog_cases H :=
  apply options_cases in H;
  destruct H as [-> | [-> | [-> | [-> | ->]]]].

Lemma in_catalog_cons (s : string) (rest : list string) :
  in_catalog (s :: rest) = true -> mem s options = true /\ in_catalog rest = true.
Proof. unfold in_catalog. simpl. now rewrite andb_true_iff. Qed.

Lemma getitem_data_catalog (s : string) :
  mem s options = true -> getitem scenario_data s = Ok (params_of s).
Proof. intros H. catalog_cases H; reflexivity. Qed.

Lemma getitem_definition_catalog (s : string) :
  mem s options = true -> getitem scenario_definitions s = Ok (description_of s).
Proof. intros H. catalog_cases H; reflexivity. Qed.

Lemma item0_catalog (s : string) :
  mem s options = true ->
  item0 (risk_profile (params_of s)) = Ok (score0 (params_of s)).
Proof. intros H. catalog_cases H; reflexivity. Qed.

Lemma plot_catalog (s : string) :
  mem s options = true -> plot n_angles (snd (ring_of s)) = Ok tt.
Proof. intros H. catalog_cases H; reflexivity. Qed.

(** Every industry, listed or not, yields a default that the widget accepts. *)
Lemma default_scenarios_in_catalog (industry : string) :
  in_catalog (default_scenarios industry) = true.
Proof.
  unfold default_scenarios, get, industry_defaults, dict_find.
  repeat match goal with
         | |- context [String.eqb industry ?k] => destruct (String.eqb industry k)
         end; reflexivity.
Qed.

Lemma filter_in_catalog (selected : list string) :
  in_catalog selected = true ->
  filter (fun s => mem s options) selected = selected.
Proof.
  unfold in_catalog. induction selected as [| s rest IH]; [reflexivity |].
  cbn [forallb filter]. rewrite andb_true_iff. intros [Hs Hrest].
  now rewrite Hs, (IH Hrest).
Qed.

Lemma filter_is_in_catalog (picked : list string) :
  in_catalog (filter (fun s => mem s options) picked) = true.
Proof.
  unfold in_catalog. apply forallb_forall. intros s Hs.
  now apply filter_In in Hs.
Qed.

Lemma selected_scenarios_ok (industry : string) (picked : option (list string)) :
  selected_scenarios industry picked =
  Ok (match picked with
      | None => default_scenarios industry
      | Some sel => filter (fun s => mem s options) sel
      end).
Proof.
  unfold selected_scenarios, multiselect.
  pose proof (default_scenarios_in_catalog industry) as H.
  unfold in_catalog in H. now rewrite H.
Qed.

Lemma selected_scenarios_catalog (industry : string) (selected : list string) :
  in_catalog selected = true ->
  selected_scenarios industry (Some selected) = Ok selected.
Proof.
  intros H. now rewrite selected_scenarios_ok, (filter_in_catalog selected H).
Qed.

(** ** The loops over the selection *)

Lemma definition_lines_catalog (selected : list string) :
  in_catalog selected = true ->
  definition_lines selected = Ok (map (fun s => (s, description_of s)) selected).
Proof.
  induction selected as [| s rest IH]; intros H; [reflexivity |].
  apply in_catalog_cons in H. destruct H as [Hs Hrest].
  simpl. rewrite (getitem_definition_catalog s Hs). simpl.
  now rewrite (IH Hrest).
Qed.

Lemma radar_loop_catalog (selected : list string) :
  in_catalog selected = true ->
  forall rings, radar_loop selected rings = Ok (rings ++ map ring_of selected).
Proof.
  induction selected as [| s rest IH]; intros H rings.
  - simpl. now rewrite app_nil_r.
  - apply in_catalog_cons in H. destruct H as [Hs Hrest].
    simpl. rewrite (getitem_data_catalog s Hs). simpl.
    rewrite (item0_catalog s Hs). simpl.
    pose proof (plot_catalog s Hs) as Hplot. simpl in Hplot. rewrite Hplot. simpl.
    rewrite (IH Hrest). now rewrite <- app_assoc.
Qed.

Lemma bar_metrics_catalog (total : Q) (s : string) :
  mem s options = true ->
  bar_metrics total (params_of s) = Ok (var_of total s, loss_of total s).
Proof.
  intros H. unfold bar_metrics. now rewrite (item0_catalog s H).
Qed.

Lemma bar_loop_catalog (total : Q) (selected : list string) :
  in_catalog selected = true ->
  forall tvars plosses,
    bar_loop total selected tvars plosses =
    Ok (tvars ++ map (var_of total) selected, plosses ++ map (loss_of total) selected).
Proof.
  induction selected as [| s rest IH]; intros H tvars plosses.
  - simpl. now rewrite !app_nil_r.
  - apply in_catalog_cons in H. destruct H as [Hs Hrest].
    cbn [bar_loop]. rewrite (getitem_data_catalog s Hs). cbn [bind].
    rewrite (bar_metrics_catalog total s Hs). cbn [bind].
    rewrite (IH Hrest). now rewrite <- !app_assoc.
Qed.

Lemma pdf_metrics_catalog (upload : Upload) (s : string) :
  mem s options = true ->
  pdf_metrics (total_of upload) (params_of s) =
  Ok (match upload with
      | Some (_, total) => (var_of total s, loss_of total s)
      | None => (0, 0)
      end).
Proof.
  intros H. unfold pdf_metrics. rewrite (item0_catalog s H). cbn [bind].
  destruct upload as [[df total] |]; reflexivity.
Qed.

Lemma pdf_section_catalog (upload : Upload) (s : string) :
  mem s options = true -> pdf_section upload s = Ok (section_of upload s).
Proof.
  intros H. unfold pdf_section.
  rewrite (getitem_data_catalog s H). cbn [bind].
  rewrite (pdf_metrics_catalog upload s H). cbn [bind].
  rewrite (getitem_definition_catalog s H).
  destruct upload as [[df total] |]; reflexivity.
Qed.

Lemma pdf_scenarios_catalog (upload : Upload) (selected : list string) :
  in_catalog selected = true ->
  forall pdf,
    pdf_scenarios upload selected pdf =
    Ok (pdf ++ flat_map (section_of upload) selected).
Proof.
  induction selected as [| s rest IH]; intros H pdf.
  - simpl. now rewrite app_nil_r.
  - apply in_catalog_cons in H. destruct H as [Hs Hrest].
    cbn [pdf_scenarios flat_map]. rewrite (pdf_section_catalog upload s Hs).
    cbn [bind]. rewrite (IH Hrest). now rewrite <- app_assoc.
Qed.

(** What a document's sections show, read back line by line. *)
Lemma section_names_app (a b : list pdf_line) :
  section_names (a ++ b) = section_names a ++ section_names b.
Proof.
  induction a as [| l a IH]; [reflexivity |].
  destruct l; simpl; now rewrite IH.
Qed.

Lemma var_lines_app (a b : list pdf_line) :
  var_lines (a ++ b) = var_lines a ++ var_lines b.
Proof.
  induction a as [| l a IH]; [reflexivity |].
  destruct l; simpl; now rewrite IH.
Qed.

Lemma loss_lines_app (a b : list pdf_line) :
  loss_lines (a ++ b) = loss_lines a ++ loss_lines b.
Proof.
  induction a as [| l a IH]; [reflexivity |].
  destruct l; simpl; now rewrite IH.
Qed.

Lemma sections_names (upload : Upload) (selected : list string) :
  section_names (flat_map (section_of upload) selected) = selected.
Proof.
  induction selected as [| s rest IH]; [reflexivity |].
  cbn [flat_map]. rewrite section_names_app, IH.
  destruct upload as [[df total] |]; reflexivity.
Qed.

Lemma sections_no_exposure_line (upload : Upload) (selected : list string) :
  filter is_exposure_line (flat_map (section_of upload) selected) = [].
Proof.
  induction selected as [| s rest IH]; [reflexivity |].
  cbn [flat_map]. rewrite filter_app, IH.
  destruct upload as [[df total] |]; reflexivity.
Qed.

Lemma sections_no_money_without_upload (selected : list string) :
  filter is_money_line (flat_map (section_of None) selected) = [].
Proof.
  induction selected as [| s rest IH]; [reflexivity |].
  cbn [flat_map]. now rewrite filter_app, IH.
Qed.

Lemma sections_var_lines (df : DataFrame) (total : Q) (selected : list string) :
  var_lines (flat_map (section_of (Some (df, total))) selected) =
  map (var_of total) selected.
Proof.
  induction selected as [| s rest IH]; [reflexivity |].
  cbn [flat_map map]. now rewrite var_lines_app, IH.
Qed.

Lemma sections_loss_lines (df : DataFrame) (total : Q) (selected : list string) :
  loss_lines (flat_map (section_of (Some (df, total))) selected) =
  map (loss_of total) selected.
Proof.
  induction selected as [| s rest IH]; [reflexivity |].
  cbn [flat_map map]. now rewrite loss_lines_app, IH.
Qed.

Lemma listing_lines (D : ExposureDataset) :
  section_names (listing D) = [] /\ var_lines (listing D) = [] /\
  loss_lines (listing D) = [] /\
  filter is_exposure_header (listing D) = [LExposureHeader].
Proof.
  unfold listing. cbn [section_names var_lines loss_lines filter is_exposure_header].
  induction D as [| r D IH]; [now repeat split |].
  destruct IH as (H1 & H2 & H3 & H4). cbn [map section_names var_lines loss_lines filter is_exposure_header].
  repeat split; try assumption.
Qed.

(** ** Sums *)



(** ** A whole run on well-formed inputs *)

Lemma load_exposure_dataset (D : option ExposureDataset) :
  load_exposure (uploaded D) = Ok (upload_of D).
Proof. destruct D; reflexivity. Qed.

Lemma bar_chart_catalog (upload : Upload) (selected : list string) :
  in_catalog selected = true ->
  bar_chart upload selected = Ok (chart_of upload selected).
Proof.
  intros H. destruct upload as [[df total] |]; [| reflexivity].
  unfold bar_chart. now rewrite (bar_loop_catalog total selected H).
Qed.

Lemma pdf_report_catalog (D : option ExposureDataset) (selected : list string) :
  in_catalog selected = true ->
  pdf_report (upload_of D) selected = Ok (document_of D selected).
Proof.
  intros H. unfold pdf_report.
  rewrite (pdf_scenarios_catalog (upload_of D) selected H). cbn [bind app].
  unfold document_of.
  destruct D as [rows |]; cbn [upload_of pdf_exposure exposure_rows bind].
  - reflexivity.
  - now rewrite app_nil_r.
Qed.

Lemma run_catalog (ind : string) (selected : list string)
    (D : option ExposureDataset) (button : bool) :
  in_catalog selected = true ->
  run (mkInputs ind (Some selected) (uploaded D) button) =
  Ok (mkPage selected
             (map (fun s => (s, description_of s)) selected)
             (total_of (upload_of D))
             (map ring_of selected)
             (chart_of (upload_of D) selected)
             (if button then Some (document_of D selected) else None)).
Proof.
  intros H. unfold run. cbn [industry picked exposure_file generate_pdf].
  rewrite (selected_scenarios_catalog ind selected H). cbn [bind].
  rewrite (definition_lines_catalog selected H). cbn [bind].
  rewrite load_exposure_dataset. cbn [bind].
  unfold radar_chart. rewrite (radar_loop_catalog selected H). cbn [bind app].
  rewrite (bar_chart_catalog _ selected H). cbn [bind].
  destruct button; [| reflexivity].
  now rewrite (pdf_report_catalog D selected H).
Qed.

Lemma getitem_data_inv (s : string) (data : ScenarioData) :
  getitem scenario_data s = Ok data ->
  mem s options = true /\ data = params_of s.
Proof.
  intros H.
  assert (Hmem : mem s options = true).
  { apply mem_true_iff. unfold options.
    destruct (in_dec string_dec s (keys scenario_data)) as [Hin | Hout];
      [assumption |].
    apply dict_find_none_iff in Hout. unfold getitem in H.
    rewrite Hout in H. discriminate. }
  split; [assumption |].
  rewrite (getitem_data_catalog s Hmem) in H. now injection H.
Qed.

(** ** Putting the document out *)

Lemma sections_encodable (upload : Upload) (selected : list string) :
  in_catalog selected = true ->
  forallb encodable (flat_map (section_of upload) selected) = true.
Proof.
  induction selected as [| s rest IH]; intros H; [reflexivity |].
  apply in_catalog_cons in H. destruct H as [Hs Hrest].
  cbn [flat_map]. rewrite forallb_app, (IH Hrest), andb_true_r.
  catalog_cases Hs; destruct upload as [[df total] |]; reflexivity.
Qed.

Lemma listing_encodable (rows : ExposureDataset) :
  forallb encodable (listing rows) = forallb (fun r => latin1 (fst r)) rows.
Proof.
  unfold listing. cbn [forallb encodable andb].
  induction rows as [| r rows IH]; [reflexivity |].
  cbn [map forallb encodable]. now rewrite IH.
Qed.

Lemma document_encodable (D : option ExposureDataset) (selected : list string) :
  in_catalog selected = true ->
  forallb encodable (document_of D selected) = sectors_encodable D.
Proof.
  intros H. unfold document_of.
  rewrite forallb_app, (sections_encodable _ selected H). cbn [andb].
  destruct D as [rows |]; [apply listing_encodable | reflexivity].
Qed.

Lemma run_with_export_catalog (ind : string) (selected : list string)
    (D : option ExposureDataset) (button : bool) :
  in_catalog selected = true ->
  sectors_encodable D = true ->
  run_with_export (mkInputs ind (Some selected) (uploaded D) button) =
  run (mkInputs ind (Some selected) (uploaded D) button).
Proof.
  intros H HD. unfold run_with_export.
  rewrite (run_catalog ind selected D button H). cbn [bind page_pdf].
  destruct button; [| reflexivity].
  unfold pdf_output. now rewrite (document_encodable D selected H), HD.
Qed.

(** A run depends on the widget only through the selection it hands back. *)
Lemma run_selection (ind : string) (choice : option (list string))
    (file : option DataFrame) (button : bool) (selected : list string) :
  selected_scenarios ind choice = Ok selected ->
  in_catalog selected = true ->
  run (mkInputs ind choice file button) =
  run (mkInputs ind (Some selected) file button).
Proof.
  intros Hsel H. unfold run. cbn [industry picked exposure_file generate_pdf].
  now rewrite Hsel, (selected_scenarios_catalog ind selected H).
Qed.

(** ** 64-bit sums *)







(** * The claims *)

(** C1: for every scenario S of the catalog and every uploaded dataset, both
    places that compute the derived metrics (the bar chart loop and the PDF
    loop) succeed and yield
    [total_exposure * (risk_profile[0] / 10)] and
    [total_exposure * physical_risk]; the first figure equals
    [total_exposure * risk_profile[0] / 10] as a number. *)
Theorem C1_derived_metrics_formula :
  forall (S : string) (data : ScenarioData) (df : DataFrame) (total : Q),
    getitem scenario_data S = Ok data ->
    load_exposure (Some df) = Ok (Some (df, total)) ->
    exists r0 : Z,
      item0 (risk_profile data) = Ok r0 /\
      bar_metrics total data =
        Ok (total * (inject_Z r0 / 10), total * physical_risk data) /\
      pdf_metrics (Some total) data =
        Ok (total * (inject_Z r0 / 10), total * physical_risk data) /\
      total * (inject_Z r0 / 10) == total * inject_Z r0 / 10.
Proof.
  intros S data df total HS _.
  apply getitem_data_inv in HS. destruct HS as [Hmem ->].
  exists (score0 (params_of S)).
  pose proof (item0_catalog S Hmem) as H0.
  split; [assumption |].
  unfold bar_metrics, pdf_metrics. rewrite H0. cbn [bind].
  repeat split; try reflexivity.
  field.
Qed.

Lemma C1_witness_net_zero :
  exists r0 : Z,
    item0 [8; 3; 9; 7; 6]%Z = Ok r0 /\
    bar_metrics 150 (params_of "Net Zero 2050") =
      Ok (150 * (inject_Z r0 / 10), 150 * (2 # 10)) /\
    pdf_metrics (Some 150) (params_of "Net Zero 2050") =
      Ok (150 * (inject_Z r0 / 10), 150 * (2 # 10)) /\
    150 * (inject_Z r0 / 10) == 150 * inject_Z r0 / 10.
Proof.
  apply (C1_derived_metrics_formula "Net Zero 2050" (params_of "Net Zero 2050")
           (BothColumns example_rows) 150); reflexivity.
Defined.

(** The worked example of the specification: rows (Financials, 100) and
    (Real Estate, 50) under Net Zero 2050 give 120 and 30. *)
Example net_zero_worked_example :
  exists var loss,
    bar_metrics (series_sum (map snd example_rows)) (params_of "Net Zero 2050")
      = Ok (var, loss) /\
    var == 120 /\ loss == 30.
Proof. eexists; eexists; split; [reflexivity | split; reflexivity]. Qed.

(** C2 (as stated, refuted): with no upload the PDF loop still binds both
    estimates of Net Zero 2050, and binds them to the number zero. *)
Lemma C2_pdf_estimate_is_zero_without_upload :
  getitem scenario_data "Net Zero 2050" = Ok (params_of "Net Zero 2050") /\
  load_exposure None = Ok None /\
  pdf_metrics (total_of None) (params_of "Net Zero 2050") = Ok (0, 0).
Proof. repeat split. Qed.

(** C2 (amended): with no upload, for any selection drawn from the catalog the
    run succeeds, the bar chart is absent, the PDF (when requested) holds no
    Estimated Transition VaR or Estimated Physical Risk Loss line, and the
    estimates the PDF loop binds for each selected scenario are both the
    number 0. *)
Theorem C2_no_upload_no_monetary_figure :
  forall (ind : string) (selected : list string) (button : bool),
    in_catalog selected = true ->
    exists page,
      run (mkInputs ind (Some selected) None button) = Ok page /\
      page_total page = None /\
      page_bar page = None /\
      page_pdf page =
        (if button then Some (flat_map (section_of None) selected) else None) /\
      filter is_money_line (flat_map (section_of None) selected) = [] /\
      Forall (fun S => exists data,
                getitem scenario_data S = Ok data /\
                pdf_metrics None data = Ok (0, 0)) selected.
Proof.
  intros ind selected button H.
  eexists. split; [exact (run_catalog ind selected None button H) |].
  cbn [page_total page_bar page_pdf upload_of total_of chart_of].
  unfold document_of. cbn [upload_of]. rewrite app_nil_r.
  repeat split.
  - apply sections_no_money_without_upload.
  - apply Forall_forall. intros S HS.
    assert (Hmem : mem S options = true).
    { unfold in_catalog in H. rewrite forallb_forall in H. now apply H. }
    exists (params_of S). split.
    + now apply getitem_data_catalog.
    + exact (pdf_metrics_catalog None S Hmem).
Qed.

Lemma C2_witness_energy_defaults :
  exists page,
    run (mkInputs "Energy" (Some (default_scenarios "Energy")) None true) = Ok page /\
    page_total page = None /\
    page_bar page = None /\
    page_pdf page =
      Some (flat_map (section_of None) (default_scenarios "Energy")) /\
    filter is_money_line (flat_map (section_of None) (default_scenarios "Energy")) = [] /\
    Forall (fun S => exists data,
              getitem scenario_data S = Ok data /\
              pdf_metrics None data = Ok (0, 0)) (default_scenarios "Energy").
Proof.
  apply (C2_no_upload_no_monetary_figure "Energy" (default_scenarios "Energy") true).
  reflexivity.
Defined.

(** C3: for every selection drawn from the catalog and every dataset state
    (absent, or a well-formed table), the run succeeds; the radar rings, the
    bar groups (when the chart exists) and the PDF sections all follow the
    selection order; and with a dataset the document is the scenario sections
    followed by the exposure listing, whose header occurs exactly once and
    none of whose lines occur inside the sections.  The i-th bar pair is the
    one computed for the i-th selected scenario. *)
Theorem C3_selection_order_and_single_listing :
  forall (ind : string) (selected : list string) (D : option ExposureDataset),
    in_catalog selected = true ->
    exists page doc,
      run (mkInputs ind (Some selected) (uploaded D) true) = Ok page /\
      page_pdf page = Some doc /\
      map fst (page_radar page) = selected /\
      match page_bar page with
      | Some chart =>
          exists total,
            page_total page = Some total /\
            xticklabels chart = selected /\
            transition_vars chart = map (var_of total) selected /\
            physical_losses chart = map (loss_of total) selected
      | None => D = None
      end /\
      section_names doc = selected /\
      exists sections,
        filter is_exposure_line sections = [] /\
        match D with
        | Some rows =>
            doc = sections ++ listing rows /\
            filter is_exposure_header doc = [LExposureHeader]
        | None => doc = sections
        end.
Proof.
  intros ind selected D H.
  eexists. exists (document_of D selected).
  split; [exact (run_catalog ind selected D true H) |].
  cbn [page_pdf page_radar page_bar].
  split; [reflexivity |].
  split.
  { rewrite map_map. cbn [ring_of fst]. apply map_id. }
  split.
  { destruct D as [rows |]; cbn [upload_of chart_of]; [| reflexivity].
    exists (series_sum (map snd rows)). repeat split. }
  split.
  { unfold document_of. rewrite section_names_app, sections_names.
    destruct D as [rows |]; [| now rewrite app_nil_r].
    destruct (listing_lines rows) as (-> & _). now rewrite app_nil_r. }
  exists (flat_map (section_of (upload_of D)) selected).
  split; [apply sections_no_exposure_line |].
  unfold document_of. destruct D as [rows |]; [| now rewrite app_nil_r].
  split; [reflexivity |].
  rewrite filter_app.
  destruct (listing_lines rows) as (_ & _ & _ & ->).
  assert (Hnone : forall l, filter is_exposure_line l = [] ->
                            filter is_exposure_header l = []).
  { induction l as [| x l IH]; [reflexivity |].
    destruct x; simpl; intros Hx; try discriminate; now apply IH. }
  now rewrite (Hnone _ (sections_no_exposure_line _ selected)).
Qed.

Lemma C3_witness_energy_with_rows :
  exists page doc,
    run (mkInputs "Energy" (Some (default_scenarios "Energy"))
                  (uploaded (Some example_rows)) true) = Ok page /\
    page_pdf page = Some doc /\
    map fst (page_radar page) = default_scenarios "Energy" /\
    match page_bar page with
    | Some chart =>
        exists total,
          page_total page = Some total /\
          xticklabels chart = default_scenarios "Energy" /\
          transition_vars chart = map (var_of total) (default_scenarios "Energy") /\
          physical_losses chart = map (loss_of total) (default_scenarios "Energy")
    | None => Some example_rows = None
    end /\
    section_names doc = default_scenarios "Energy" /\
    exists sections,
      filter is_exposure_line sections = [] /\
      doc = sections ++ listing example_rows /\
      filter is_exposure_header doc = [LExposureHeader].
Proof.
  apply (C3_selection_order_and_single_listing "Energy"
           (default_scenarios "Energy") (Some example_rows)).
  reflexivity.
Defined.

(** C4 (as stated, refuted): a file without the sector column parses without
    error, and so does a file with a negative exposure value, whose total is
    that negative number. *)
Lemma C4_missing_sector_and_negative_value_accepted :
  has_sector_column (ExposureOnly [100]) = false /\
  load_exposure (Some (ExposureOnly [100])) = Ok (Some (ExposureOnly [100], 100)) /\
  load_exposure (Some (BothColumns [("Financials", -5 # 1)])) =
    Ok (Some (BothColumns [("Financials", -5 # 1)], -5 # 1)) /\
  (-5 # 1) < 0.
Proof. repeat split. Qed.

(** C4 (amended): on the table that pandas has read from the uploaded file,
    the upload block fails when the exposure value column is missing, and then
    with a KeyError on the column label; a table that has a numeric exposure
    column is accepted, whether or not the sector column is there and whatever
    the sign of the values.  No other check is made. *)
Theorem C4_upload_checked_for_exposure_column_alone :
  forall df : DataFrame,
    (has_exposure_column df = false ->
     load_exposure (Some df) = Err (KeyError "Exposure_M AUD")) /\
    (has_exposure_column df = true ->
     exists total : Q, load_exposure (Some df) = Ok (Some (df, total))).
Proof.
  intros [rows | values | sectors | n]; split; intros H;
    try discriminate H; try reflexivity.
  - now exists (series_sum (map snd rows)).
  - now exists (series_sum values).
Qed.

(** C5: for every scenario S of the catalog and every uploaded dataset, the
    bar chart loop and the PDF loop compute the same pair (transition VaR,
    physical loss), and both succeed. *)
Theorem C5_bar_and_pdf_metrics_agree :
  forall (S : string) (data : ScenarioData) (df : DataFrame) (total : Q),
    getitem scenario_data S = Ok data ->
    load_exposure (Some df) = Ok (Some (df, total)) ->
    exists var loss : Q,
      bar_metrics total data = Ok (var, loss) /\
      pdf_metrics (total_of (Some (df, total))) data = Ok (var, loss).
Proof.
  intros S data df total HS _.
  apply getitem_data_inv in HS. destruct HS as [Hmem ->].
  exists (var_of total S), (loss_of total S). split.
  - now apply bar_metrics_catalog.
  - exact (pdf_metrics_catalog (Some (df, total)) S Hmem).
Qed.

Lemma C5_witness_hot_house :
  exists var loss : Q,
    bar_metrics 150 (params_of "Hot House World") = Ok (var, loss) /\
    pdf_metrics (Some 150) (params_of "Hot House World") = Ok (var, loss).
Proof.
  apply (C5_bar_and_pdf_metrics_agree "Hot House World"
           (params_of "Hot House World") (BothColumns example_rows) 150);
    reflexivity.
Defined.


(** In one run, the amounts printed in the PDF are the bar chart's series. *)
Lemma pdf_figures_are_bar_series (ind : string) (selected : list string)
    (rows : ExposureDataset) :
  in_catalog selected = true ->
  exists page chart doc,
    run (mkInputs ind (Some selected) (uploaded (Some rows)) true) = Ok page /\
    page_bar page = Some chart /\ page_pdf page = Some doc /\
    var_lines doc = transition_vars chart /\
    loss_lines doc = physical_losses chart.
Proof.
  intros H. eexists. eexists. eexists.
  split; [exact (run_catalog ind selected (Some rows) true H) |].
  cbn [page_bar page_pdf upload_of chart_of].
  split; [reflexivity |]. split; [reflexivity |].
  cbn [transition_vars physical_losses]. unfold document_of. cbn [upload_of].
  rewrite var_lines_app, loss_lines_app, sections_var_lines, sections_loss_lines.
  destruct (listing_lines rows) as (_ & -> & -> & _).
  now rewrite !app_nil_r.
Qed.




(** An upload with a header and no rows has total 0. *)
Example empty_upload_total :
  load_exposure (uploaded (Some [])) = Ok (Some (BothColumns [], 0)).
Proof. reflexivity. Qed.

(** C7: every scenario of the catalog has a risk profile of exactly five
    scores, a physical risk factor between 0 and 1 and a non-negative carbon
    price, and the definitions table and the parameters table have the same
    scenario names. *)
Theorem C7_catalog_invariants :
  Forall (fun entry =>
            List.length (risk_profile (snd entry)) = 5%nat /\
            0 <= physical_risk (snd entry) /\
            physical_risk (snd entry) <= 1 /\
            (0 <= carbon_price (snd entry))%Z) scenario_data /\
  (forall name : string,
      In name (keys scenario_definitions) <-> In name (keys scenario_data)).
Proof.
  split.
  - unfold scenario_data.
    repeat (apply Forall_cons || apply Forall_nil);
      cbn [snd risk_profile physical_risk carbon_price List.length];
      (repeat split; [unfold Qle; simpl; lia .. | lia]).
  - intros name.
    replace (keys scenario_definitions) with (keys scenario_data) by reflexivity.
    tauto.
Qed.

(** C8: for every industry value the default selection is produced without
    error, and for an industry that the defaults table does not list it is the
    single fallback [Net Zero 2050]. *)
Theorem C8_defaults_fail_soft :
  forall industry : string,
    exists defaults : list string,
      default_scenarios industry = defaults /\
      selected_scenarios industry None = Ok defaults /\
      (~ In industry (keys industry_defaults) -> defaults = ["Net Zero 2050"]).
Proof.
  intros industry. exists (default_scenarios industry).
  split; [reflexivity |]. split; [apply selected_scenarios_ok |].
  intros Hout. apply dict_find_none_iff in Hout.
  unfold default_scenarios, get. now rewrite Hout.
Qed.

Lemma C8_witness_unknown_industry :
  default_scenarios "Unknown/Other" = ["Net Zero 2050"] /\
  selected_scenarios "Unknown/Other" None = Ok ["Net Zero 2050"].
Proof.
  destruct (C8_defaults_fail_soft "Unknown/Other") as (defaults & Hd & Hs & Hfb).
  assert (Hout : ~ In "Unknown/Other" (keys industry_defaults)).
  { apply dict_find_none_iff. reflexivity. }
  rewrite (Hfb Hout) in Hd, Hs. now split.
Defined.

(** The listed industries get their own defaults, e.g. Energy. *)
Example energy_defaults :
  default_scenarios "Energy" =
  ["Immediate Disorderly Transition (2025 release)"; "Net Zero 2050"].
Proof. reflexivity. Qed.

(** A run with the untouched widget is the run on the industry's defaults. *)
Lemma run_default (ind : string) (file : option DataFrame) (button : bool) :
  run (mkInputs ind None file button) =
  run (mkInputs ind (Some (default_scenarios ind)) file button).
Proof.
  unfold run. cbn [industry picked exposure_file generate_pdf].
  now rewrite (selected_scenarios_catalog ind _ (default_scenarios_in_catalog ind)),
    selected_scenarios_ok.
Qed.

(** C9 (the code at the failing input): a selection of four catalog scenarios
    is a value the multiselect can return, and the run hands all four to the
    radar chart, the bar chart and the PDF. *)
Theorem C9_four_scenarios_reach_the_outputs :
  widget_value options four_scenarios = true /\
  List.length four_scenarios = 4%nat /\
  exists page chart doc,
    run (mkInputs "Energy" (Some four_scenarios)
                  (uploaded (Some example_rows)) true) = Ok page /\
    page_selected page = four_scenarios /\
    List.length (page_radar page) = 4%nat /\
    page_bar page = Some chart /\
    List.length (transition_vars chart) = 4%nat /\
    page_pdf page = Some doc /\
    section_names doc = four_scenarios.
Proof.
  split; [reflexivity |]. split; [reflexivity |].
  eexists. eexists. eexists.
  split; [exact (run_catalog "Energy" four_scenarios (Some example_rows) true
                   eq_refl) |].
  repeat split.
Qed.

(** What the widget does guarantee: distinct names, all from the catalog,
    hence at most as many as the catalog has. *)
Lemma widget_value_in_catalog (selected : list string) :
  widget_value options selected = true ->
  NoDup selected /\ in_catalog selected = true /\
  (List.length selected <= List.length options)%nat.
Proof.
  unfold widget_value. rewrite andb_true_iff. intros [Hd Hin].
  assert (Hnd : NoDup selected).
  { induction selected as [| s rest IH]; [constructor |].
    cbn [distinct forallb] in Hd, Hin.
    rewrite andb_true_iff in Hd, Hin. destruct Hd as [Hs Hd], Hin as [_ Hin].
    constructor; [| now apply IH].
    intros Hmem. apply mem_true_iff in Hmem. rewrite Hmem in Hs. discriminate. }
  split; [assumption |]. split; [assumption |].
  apply NoDup_incl_length; [assumption |].
  intros s Hs. rewrite forallb_forall in Hin. apply mem_true_iff. now apply Hin.
Qed.

(** C10 (as stated, refuted): with no scenario selected, the export still
    raises for an upload that lacks the sector column and has a row, and for
    an upload whose sector label has a character outside latin-1. *)
Lemma C10_empty_selection_export_raises :
  run_with_export (mkInputs "Energy" (Some []) (Some (ExposureOnly [100])) true)
    = Err (KeyError "Sector") /\
  run_with_export (mkInputs "Energy" (Some []) (uploaded (Some euro_rows)) true)
    = Err UnicodeEncodeError.
Proof. split; reflexivity. Qed.

(** C10 (amended): with no scenario selected the whole script, export
    included, completes for every industry, either state of the export
    button, and every dataset that is absent or a table with both columns
    whose sector labels latin-1 can encode: no radar ring, a bar chart (when
    a dataset is present) with no group, and a PDF without scenario sections
    that consists of exactly the exposure listing when a dataset was
    uploaded. *)
Theorem C10_empty_selection_completes_on_encodable_tables :
  forall (ind : string) (D : option ExposureDataset) (button : bool),
    sectors_encodable D = true ->
    exists page,
      run_with_export (mkInputs ind (Some []) (uploaded D) button) = Ok page /\
      page_selected page = [] /\
      page_radar page = [] /\
      page_bar page =
        match D with
        | Some _ => Some (mkBarChart [] [] [])
        | None => None
        end /\
      page_pdf page =
        (if button
         then Some (match D with
                    | Some rows => listing rows
                    | None => []
                    end)
         else None) /\
      (forall doc, page_pdf page = Some doc -> section_names doc = []).
Proof.
  intros ind D button HD.
  eexists. split.
  { rewrite (run_with_export_catalog ind [] D button eq_refl HD).
    exact (run_catalog ind [] D button eq_refl). }
  cbn [page_selected page_radar page_bar page_pdf map].
  split; [reflexivity |]. split; [reflexivity |].
  split; [now destruct D |].
  assert (Hdoc : document_of D [] =
                 match D with Some rows => listing rows | None => [] end).
  { now destruct D. }
  rewrite Hdoc. split; [reflexivity |].
  intros doc Hpdf. destruct button; [| discriminate].
  injection Hpdf as <-.
  destruct D as [rows |]; [| reflexivity].
  now destruct (listing_lines rows) as (-> & _).
Qed.

Lemma C10_witness_example_rows :
  exists page,
    run_with_export (mkInputs "Energy" (Some []) (uploaded (Some example_rows)) true)
      = Ok page /\
    page_selected page = [] /\
    page_radar page = [] /\
    page_bar page = Some (mkBarChart [] [] []) /\
    page_pdf page = Some (listing example_rows) /\
    (forall doc, page_pdf page = Some doc -> section_names doc = []).
Proof.
  apply (C10_empty_selection_completes_on_encodable_tables "Energy"
           (Some example_rows) true).
  reflexivity.
Defined.

(** * Further properties of the script *)

(** ** Which runs succeed, and how the others fail *)

Lemma run_catalog_frame (ind : string) (selected : list string)
    (df : DataFrame) (values : list Q) (button : bool) :
  in_catalog selected = true ->
  exposure_column df = Ok values ->
  run (mkInputs ind (Some selected) (Some df) button) =
  (pdf <- (if button
           then (rows <- exposure_rows df ;;
                 Ok (Some (flat_map (section_of (Some (df, series_sum values)))
                                    selected
                           ++ [LExposureHeader] ++ rows)))
           else Ok None) ;;
   Ok (mkPage selected
              (map (fun s => (s, description_of s)) selected)
              (Some (series_sum values))
              (map ring_of selected)
              (chart_of (Some (df, series_sum values)) selected)
              pdf)).
Proof.
  intros H Hcol. unfold run. cbn [industry picked exposure_file generate_pdf].
  rewrite (selected_scenarios_catalog ind selected H). cbn [bind].
  rewrite (definition_lines_catalog selected H). cbn [bind].
  unfold load_exposure. rewrite Hcol. cbn [bind].
  unfold radar_chart. rewrite (radar_loop_catalog selected H). cbn [bind app].
  rewrite (bar_chart_catalog _ selected H). cbn [bind total_of].
  destruct button; [| reflexivity].
  unfold pdf_report. rewrite (pdf_scenarios_catalog _ selected H).
  cbn [bind app pdf_exposure].
  now destruct (exposure_rows df).
Qed.

(** X1: whatever the user picks in the multiselect, the whole script, export
    included, runs to completion for every industry, either state of the
    button and every dataset that is absent or a table with both columns,
    numeric exposure values and sector labels latin-1 can encode.  The
    selection the script works on is the untouched default or the picked
    options; all of its names are in the catalog, so none of the lookups of
    lines 52, 74, 92 and 121 raises, and each gets a radar ring. *)
Theorem reachable_selection_runs :
  forall (ind : string) (choice : option (list string))
         (D : option ExposureDataset) (button : bool),
    sectors_encodable D = true ->
    exists page,
      run_with_export (mkInputs ind choice (uploaded D) button) = Ok page /\
      page_selected page =
        match choice with
        | Some sel => filter (fun s => mem s options) sel
        | None => default_scenarios ind
        end /\
      in_catalog (page_selected page) = true /\
      map fst (page_radar page) = page_selected page /\
      (button = true -> exists doc, page_pdf page = Some doc).
Proof.
  intros ind choice D button HD.
  pose proof (selected_scenarios_ok ind choice) as Hsel.
  set (selected := match choice with
                   | Some sel => filter (fun s => mem s options) sel
                   | None => default_scenarios ind
                   end) in *.
  assert (Hcat : in_catalog selected = true).
  { subst selected. destruct choice as [sel |].
    - apply filter_is_in_catalog.
    - apply default_scenarios_in_catalog. }
  assert (Hrun : run_with_export (mkInputs ind choice (uploaded D) button) =
                 run (mkInputs ind (Some selected) (uploaded D) button)).
  { rewrite <- (run_with_export_catalog ind selected D button Hcat HD).
    unfold run_with_export.
    now rewrite (run_selection ind choice (uploaded D) button selected Hsel Hcat). }
  eexists. split.
  { rewrite Hrun. exact (run_catalog ind selected D button Hcat). }
  cbn [page_selected page_radar page_pdf].
  split; [reflexivity |]. split; [assumption |].
  split; [rewrite map_map; apply map_id |].
  intros ->. eexists. reflexivity.
Qed.

Lemma reachable_selection_runs_witness :
  exists page,
    run_with_export (mkInputs "Agriculture" (Some two_scenarios)
                              (uploaded (Some example_rows)) true) = Ok page /\
    page_selected page = two_scenarios /\
    in_catalog (page_selected page) = true /\
    map fst (page_radar page) = page_selected page /\
    (true = true -> exists doc, page_pdf page = Some doc).
Proof.
  apply (reachable_selection_runs "Agriculture" (Some two_scenarios)
           (Some example_rows) true).
  reflexivity.
Defined.

(** X3: an upload without the exposure value column stops every run on a
    catalog selection at line 62 with a KeyError on the column label: no chart
    and no PDF is produced, whether or not the export button was pressed and
    even for the empty selection. *)
Theorem missing_exposure_column_blocks_run :
  forall (ind : string) (selected : list string) (df : DataFrame) (button : bool),
    in_catalog selected = true ->
    has_exposure_column df = false ->
    run (mkInputs ind (Some selected) (Some df) button)
      = Err (KeyError "Exposure_M AUD").
Proof.
  intros ind selected df button H Hcol. unfold run.
  cbn [industry picked exposure_file generate_pdf].
  rewrite (selected_scenarios_catalog ind selected H). cbn [bind].
  rewrite (definition_lines_catalog selected H). cbn [bind].
  destruct df as [rows | values | sectors | n]; try discriminate Hcol;
    reflexivity.
Qed.

Lemma missing_exposure_column_blocks_run_witness :
  run (mkInputs "Energy" (Some two_scenarios)
                (Some (SectorOnly ["Financials"; "Real Estate"])) false)
    = Err (KeyError "Exposure_M AUD").
Proof.
  apply (missing_exposure_column_blocks_run "Energy" two_scenarios
           (SectorOnly ["Financials"; "Real Estate"]) false); reflexivity.
Defined.

(** X4: an upload that has the exposure column but no sector column is
    charted like any other (total and bar chart are produced); only the PDF
    export raises, a KeyError on "Sector" at the first listed row, and an
    upload of that shape without any row is exported as sections followed by
    the bare listing header. *)
Theorem missing_sector_column_only_breaks_export :
  forall (ind : string) (selected : list string) (values : list Q),
    in_catalog selected = true ->
    (exists page,
        run (mkInputs ind (Some selected) (Some (ExposureOnly values)) false)
          = Ok page /\
        page_total page = Some (series_sum values) /\
        page_bar page =
          Some (mkBarChart selected
                           (map (var_of (series_sum values)) selected)
                           (map (loss_of (series_sum values)) selected)) /\
        page_pdf page = None) /\
    match values with
    | [] =>
        exists page sections,
          run (mkInputs ind (Some selected) (Some (ExposureOnly [])) true)
            = Ok page /\
          page_pdf page = Some (sections ++ [LExposureHeader]) /\
          section_names sections = selected
    | _ :: _ =>
        run (mkInputs ind (Some selected) (Some (ExposureOnly values)) true)
          = Err (KeyError "Sector")
    end.
Proof.
  intros ind selected values H. split.
  - eexists. split.
    + exact (run_catalog_frame ind selected (ExposureOnly values) values false
               H eq_refl).
    + cbn [bind page_total page_bar page_pdf chart_of]. repeat split.
  - destruct values as [| v rest].
    + eexists. eexists. split.
      * exact (run_catalog_frame ind selected (ExposureOnly []) [] true
                 H eq_refl).
      * cbn [bind exposure_rows page_pdf app]. split; [reflexivity |].
        apply sections_names.
    + rewrite (run_catalog_frame ind selected (ExposureOnly (v :: rest))
                 (v :: rest) true H eq_refl).
      reflexivity.
Qed.

Lemma missing_sector_column_only_breaks_export_witness :
  (exists page,
      run (mkInputs "Energy" (Some two_scenarios) (Some (ExposureOnly [100; 50])) false)
        = Ok page /\
      page_total page = Some (series_sum [100; 50]) /\
      page_bar page =
        Some (mkBarChart two_scenarios
                         (map (var_of (series_sum [100; 50])) two_scenarios)
                         (map (loss_of (series_sum [100; 50])) two_scenarios)) /\
      page_pdf page = None) /\
  run (mkInputs "Energy" (Some two_scenarios) (Some (ExposureOnly [100; 50])) true)
    = Err (KeyError "Sector").
Proof.
  apply (missing_sector_column_only_breaks_export "Energy" two_scenarios [100; 50]).
  reflexivity.
Defined.

(** ** The size of the estimates *)


Lemma catalog_fractions (s : string) :
  mem s options = true ->
  (0 <= inject_Z (score0 (params_of s)) / 10 /\
   inject_Z (score0 (params_of s)) / 10 <= 1) /\
  (0 <= physical_risk (params_of s) /\ physical_risk (params_of s) <= 1).
Proof.
  intros H. catalog_cases H; repeat split; vm_compute; discriminate.
Qed.



(** X6: for a catalog scenario the estimates grow with the total exposure:
    a larger (or equal) total never gives a smaller transition VaR or
    physical loss.  In particular a negative total is not clamped: its
    estimates are at most those of total 0. *)
Theorem estimates_monotone_in_total :
  forall (S : string) (data : ScenarioData) (t1 t2 : Q),
    getitem scenario_data S = Ok data ->
    t1 <= t2 ->
    exists var1 loss1 var2 loss2 : Q,
      bar_metrics t1 data = Ok (var1, loss1) /\
      bar_metrics t2 data = Ok (var2, loss2) /\
      var1 <= var2 /\ loss1 <= loss2.
Proof.
  intros S data t1 t2 HS Hle.
  apply getitem_data_inv in HS. destruct HS as [Hmem ->].
  exists (var_of t1 S), (loss_of t1 S), (var_of t2 S), (loss_of t2 S).
  split; [now apply bar_metrics_catalog |].
  split; [now apply bar_metrics_catalog |].
  destruct (catalog_fractions S Hmem) as [[Hv0 _] [Hl0 _]].
  unfold var_of, loss_of. split.
  - rewrite (Qmult_comm t1), (Qmult_comm t2).
    apply Qle_minus_iff.
    setoid_replace (inject_Z (score0 (params_of S)) / 10 * t2
                    + - (inject_Z (score0 (params_of S)) / 10 * t1))
      with (inject_Z (score0 (params_of S)) / 10 * (t2 - t1)) by ring.
    apply Qmult_le_0_compat; [assumption | now apply -> Qle_minus_iff].
  - rewrite (Qmult_comm t1), (Qmult_comm t2).
    apply Qle_minus_iff.
    setoid_replace (physical_risk (params_of S) * t2
                    + - (physical_risk (params_of S) * t1))
      with (physical_risk (params_of S) * (t2 - t1)) by ring.
    apply Qmult_le_0_compat; [assumption | now apply -> Qle_minus_iff].
Qed.

Lemma estimates_monotone_in_total_witness :
  exists var1 loss1 var2 loss2 : Q,
    bar_metrics (-5 # 1) (params_of "Delayed Transition") = Ok (var1, loss1) /\
    bar_metrics 0 (params_of "Delayed Transition") = Ok (var2, loss2) /\
    var1 <= var2 /\ loss1 <= loss2.
Proof.
  apply (estimates_monotone_in_total "Delayed Transition"
           (params_of "Delayed Transition") (-5 # 1) 0).
  - reflexivity.
  - vm_compute. discriminate.
Defined.

(** ** Totals of rearranged and joined whole-number columns *)






(** ** The radar polygons *)

Lemma radar_loop_cons (s : string) (rest : list string)
    (rings : list (string * list Z)) :
  radar_loop (s :: rest) rings =
  (data <- getitem scenario_data s ;;
   scores <- radar_scores data ;;
   radar_loop rest (rings ++ [(s, scores)])).
Proof.
  cbn [radar_loop]. destruct (getitem scenario_data s) as [data | e];
    [| reflexivity].
  cbn [bind]. unfold radar_scores.
  destruct (item0 (risk_profile data)) as [first | e]; [| reflexivity].
  cbn [bind]. now destruct (plot n_angles (risk_profile data ++ [first])).
Qed.

(** X9: the polygon of lines 75-76 can be drawn exactly for a risk profile with
    one score per axis label: the scores handed to the plot are then the
    profile followed by its first score, as many as there are angles; an empty
    profile raises IndexError and any other length raises ValueError.  The
    radar loop performs this step for each selected scenario. *)
Theorem radar_scores_need_one_score_per_label :
  forall data : ScenarioData,
    (List.length (risk_profile data) = List.length labels ->
     exists first,
       item0 (risk_profile data) = Ok first /\
       radar_scores data = Ok (risk_profile data ++ [first]) /\
       List.length (risk_profile data ++ [first]) = List.length angles) /\
    (risk_profile data = [] -> radar_scores data = Err IndexError) /\
    (risk_profile data <> [] ->
     List.length (risk_profile data) <> List.length labels ->
     radar_scores data = Err ValueError) /\
    (forall s rest rings,
        getitem scenario_data s = Ok data ->
        radar_loop (s :: rest) rings =
        (scores <- radar_scores data ;; radar_loop rest (rings ++ [(s, scores)]))).
Proof.
  intros data. unfold radar_scores, plot.
  replace n_angles with 6%nat by reflexivity.
  replace (List.length angles) with 6%nat by reflexivity.
  replace (List.length labels) with 5%nat by reflexivity.
  destruct (risk_profile data) as [| first profile] eqn:Hrp.
  - repeat split; try discriminate; try congruence.
    intros s rest rings Hs. rewrite radar_loop_cons, Hs. cbn [bind].
    unfold radar_scores. now rewrite Hrp.
  - cbn [item0 bind]. rewrite length_app. cbn [List.length].
    repeat split.
    + intros Hlen. exists first. injection Hlen as Hlen. rewrite Hlen.
      split; [reflexivity |]. split; [reflexivity |].
      cbn [app List.length]. rewrite length_app, Hlen. reflexivity.
    + discriminate.
    + intros _ Hlen.
      match goal with
      | |- context [Nat.eqb ?a ?b] => destruct (Nat.eqb_spec a b) as [Heq | Hne]
      end; [| reflexivity].
      exfalso. apply Hlen. lia.
    + intros s rest rings Hs. rewrite radar_loop_cons, Hs. cbn [bind].
      unfold radar_scores, plot. rewrite Hrp. cbn [item0 bind].
      rewrite length_app. reflexivity.
Qed.

Lemma ring_of_closed (s : string) :
  mem s options = true -> closed_ring (ring_of s).
Proof. intros H. catalog_cases H; split; reflexivity. Qed.

(** X10: for every selection of catalog names the radar chart is drawn: one
    ring per selected scenario, labelled in selection order, each with as
    many scores as there are angles and ending on the score it starts with. *)
Theorem radar_rings_are_closed :
  forall selected : list string,
    in_catalog selected = true ->
    exists rings,
      radar_chart selected = Ok rings /\
      map fst rings = selected /\
      Forall closed_ring rings /\
      Forall (fun ring =>
                exists data,
                  getitem scenario_data (fst ring) = Ok data /\
                  firstn (List.length labels) (snd ring) = risk_profile data)
             rings.
Proof.
  intros selected H. exists (map ring_of selected).
  split; [exact (radar_loop_catalog selected H []) |].
  split; [rewrite map_map; apply map_id |].
  unfold in_catalog in H. rewrite forallb_forall in H.
  split; apply Forall_forall; intros ring Hin;
    apply in_map_iff in Hin; destruct Hin as (s & <- & Hs);
    specialize (H s Hs).
  - now apply ring_of_closed.
  - exists (params_of s). split; [now apply getitem_data_catalog |].
    catalog_cases H; reflexivity.
Qed.

Lemma radar_rings_are_closed_witness :
  exists rings,
    radar_chart two_scenarios = Ok rings /\
    map fst rings = two_scenarios /\
    Forall closed_ring rings /\
    Forall (fun ring =>
              exists data,
                getitem scenario_data (fst ring) = Ok data /\
                firstn (List.length labels) (snd ring) = risk_profile data)
           rings.
Proof. apply (radar_rings_are_closed two_scenarios). reflexivity. Defined.

(** X13: with an upload, the PDF and the bar chart of one run are fed the
    same figures for the same scenarios: the section names of the document
    are the tick labels of the chart, and the amounts handed to the
    two-decimal format of the Estimated Transition VaR and Estimated Physical
    Risk Loss lines are, in page order, the heights of the two bar series,
    one of each per selected scenario. *)
Theorem pdf_and_chart_show_the_same_figures :
  forall (ind : string) (selected : list string) (rows : ExposureDataset),
    in_catalog selected = true ->
    exists page chart doc,
      run (mkInputs ind (Some selected) (uploaded (Some rows)) true) = Ok page /\
      page_bar page = Some chart /\ page_pdf page = Some doc /\
      section_names doc = xticklabels chart /\
      var_lines doc = transition_vars chart /\
      loss_lines doc = physical_losses chart /\
      List.length (var_lines doc) = List.length selected /\
      List.length (loss_lines doc) = List.length selected.
Proof.
  intros ind selected rows H. eexists. eexists. eexists.
  split; [exact (run_catalog ind selected (Some rows) true H) |].
  cbn [page_bar page_pdf upload_of chart_of].
  split; [reflexivity |]. split; [reflexivity |].
  cbn [xticklabels transition_vars physical_losses].
  unfold document_of. cbn [upload_of].
  rewrite section_names_app, var_lines_app, loss_lines_app, sections_names,
    sections_var_lines, sections_loss_lines.
  destruct (listing_lines rows) as (-> & -> & -> & _).
  rewrite !app_nil_r, !length_map. repeat split.
Qed.

Lemma pdf_and_chart_show_the_same_figures_witness :
  exists page chart doc,
    run (mkInputs "Real Estate" (Some two_scenarios)
                  (uploaded (Some example_rows)) true) = Ok page /\
    page_bar page = Some chart /\ page_pdf page = Some doc /\
    section_names doc = xticklabels chart /\
    var_lines doc = transition_vars chart /\
    loss_lines doc = physical_losses chart /\
    List.length (var_lines doc) = List.length two_scenarios /\
    List.length (loss_lines doc) = List.length two_scenarios.
Proof.
  apply (pdf_and_chart_show_the_same_figures "Real Estate" two_scenarios
           example_rows).
  reflexivity.
Defined.

(** X14: the exported document has a fixed shape: five lines per selected
    scenario without an upload and seven with one, then, with an upload, the
    listing header and one line per uploaded row. *)
Theorem document_line_count :
  forall (ind : string) (selected : list string) (D : option ExposureDataset),
    in_catalog selected = true ->
    exists page doc,
      run (mkInputs ind (Some selected) (uploaded D) true) = Ok page /\
      page_pdf page = Some doc /\
      List.length doc =
        match D with
        | None => (5 * List.length selected)%nat
        | Some rows => (7 * List.length selected + 1 + List.length rows)%nat
        end.
Proof.
  intros ind selected D H. eexists. eexists.
  split; [exact (run_catalog ind selected D true H) |].
  split; [reflexivity |].
  unfold document_of. rewrite length_app.
  assert (Hsec : forall upload,
             List.length (flat_map (section_of upload) selected) =
             ((match upload with Some _ => 7 | None => 5 end)
              * List.length selected)%nat).
  { intros upload. clear H.
    induction selected as [| s rest IH]; [now destruct upload |].
    cbn [flat_map]. rewrite length_app, IH.
    destruct upload as [[df total] |]; cbn [section_of List.length app]; lia. }
  rewrite Hsec.
  destruct D as [rows |]; cbn [upload_of listing List.length].
  - rewrite length_map. lia.
  - lia.
Qed.

Lemma document_line_count_witness :
  exists page doc,
    run (mkInputs "Real Estate" (Some two_scenarios)
                  (uploaded (Some example_rows)) true) = Ok page /\
    page_pdf page = Some doc /\
    List.length doc = (7 * List.length two_scenarios + 1 + List.length example_rows)%nat.
Proof.
  apply (document_line_count "Real Estate" two_scenarios (Some example_rows)).
  reflexivity.
Defined.

(** ** Defaults, definitions and the empty upload *)

(** X15: for every industry value, listed or not, the pre-filled selection is
    one the widget itself could return (distinct catalog names) and holds one
    or two scenarios, within the three the label asks for. *)
Theorem defaults_are_valid_selections :
  forall ind : string,
    widget_value options (default_scenarios ind) = true /\
    (1 <= List.length (default_scenarios ind) <= 2)%nat.
Proof.
  intros ind.
  unfold default_scenarios, get, industry_defaults, dict_find.
  repeat match goal with
         | |- context [String.eqb ind ?k] => destruct (String.eqb ind k)
         end; (split; [reflexivity | cbn [List.length]; lia]).
Qed.

(** X16: lines 51-52 show, for every selection of catalog names, exactly one
    definition line per selected scenario, in selection order, each carrying
    the text the definitions table has for that name. *)
Theorem definitions_shown_in_selection_order :
  forall (ind : string) (selected : list string)
         (D : option ExposureDataset) (button : bool),
    in_catalog selected = true ->
    exists page,
      run (mkInputs ind (Some selected) (uploaded D) button) = Ok page /\
      map fst (page_definitions page) = selected /\
      Forall (fun line =>
                getitem scenario_definitions (fst line) = Ok (snd line))
             (page_definitions page).
Proof.
  intros ind selected D button H. eexists.
  split; [exact (run_catalog ind selected D button H) |].
  cbn [page_definitions].
  split; [rewrite map_map; apply map_id |].
  apply Forall_forall. intros line Hin.
  apply in_map_iff in Hin. destruct Hin as (s & <- & Hs).
  unfold in_catalog in H. rewrite forallb_forall in H.
  exact (getitem_definition_catalog s (H s Hs)).
Qed.

Lemma definitions_shown_in_selection_order_witness :
  exists page,
    run (mkInputs "Manufacturing" (Some two_scenarios) (uploaded None) false)
      = Ok page /\
    map fst (page_definitions page) = two_scenarios /\
    Forall (fun line =>
              getitem scenario_definitions (fst line) = Ok (snd line))
           (page_definitions page).
Proof.
  apply (definitions_shown_in_selection_order "Manufacturing" two_scenarios
           None false).
  reflexivity.
Defined.

(** X17: an upload with a header and no rows is not treated as a missing
    upload: the total is 0, the bar chart is drawn with one group per selected
    scenario whose bars are all zero, and the PDF prints one Estimated
    Transition VaR and one Estimated Physical Risk Loss line per scenario,
    with amount zero, followed by the listing header. *)
Theorem empty_upload_gives_zero_figures :
  forall (ind : string) (selected : list string),
    in_catalog selected = true ->
    exists page chart doc,
      run (mkInputs ind (Some selected) (uploaded (Some [])) true) = Ok page /\
      page_total page = Some 0 /\
      page_bar page = Some chart /\
      page_pdf page = Some doc /\
      List.length (transition_vars chart) = List.length selected /\
      List.length (physical_losses chart) = List.length selected /\
      Forall (fun v => v == 0) (transition_vars chart) /\
      Forall (fun v => v == 0) (physical_losses chart) /\
      var_lines doc = transition_vars chart /\
      loss_lines doc = physical_losses chart /\
      filter is_exposure_line doc = [LExposureHeader].
Proof.
  intros ind selected H. eexists. eexists. eexists.
  split; [exact (run_catalog ind selected (Some []) true H) |].
  cbn [page_total page_bar page_pdf upload_of chart_of total_of map].
  split; [reflexivity |]. split; [reflexivity |]. split; [reflexivity |].
  cbn [transition_vars physical_losses].
  rewrite !length_map.
  split; [reflexivity |]. split; [reflexivity |].
  split.
  { apply Forall_forall. intros v Hin. apply in_map_iff in Hin.
    destruct Hin as (s & <- & _). unfold var_of, series_sum. cbn [fold_left].
    ring. }
  split.
  { apply Forall_forall. intros v Hin. apply in_map_iff in Hin.
    destruct Hin as (s & <- & _). unfold loss_of, series_sum. cbn [fold_left].
    ring. }
  unfold document_of. cbn [upload_of map].
  rewrite var_lines_app, loss_lines_app, filter_app, sections_var_lines,
    sections_loss_lines, sections_no_exposure_line.
  repeat split; now rewrite app_nil_r.
Qed.

Lemma empty_upload_gives_zero_figures_witness :
  exists page chart doc,
    run (mkInputs "Energy" (Some two_scenarios) (uploaded (Some [])) true)
      = Ok page /\
    page_total page = Some 0 /\
    page_bar page = Some chart /\
    page_pdf page = Some doc /\
    List.length (transition_vars chart) = List.length two_scenarios /\
    List.length (physical_losses chart) = List.length two_scenarios /\
    Forall (fun v => v == 0) (transition_vars chart) /\
    Forall (fun v => v == 0) (physical_losses chart) /\
    var_lines doc = transition_vars chart /\
    loss_lines doc = physical_losses chart /\
    filter is_exposure_line doc = [LExposureHeader].
Proof.
  apply (empty_upload_gives_zero_figures "Energy" two_scenarios).
  reflexivity.
Defined.
